(** * Logistic-regression tutorial notebook: data retrieval, loader and
      exercise stubs

    A shallow embedding of the code cells of the notebook
    (W1D3_Tutorial2): the "Data retrieval and loading" cell, the loader
    [load_steinmetz_data], and the two coding exercises [sigmoid] and
    [compute_accuracy].

    The cells talk to the file system, to the network and to the standard
    output, and they raise exceptions.  They are embedded in a small
    state-and-error monad over a [world] made of the files of the working
    directory and the log of observable events. *)

From Stdlib Require Import Reals Lra QArith.
From stdpp Require Import gmap strings list fin_maps pretty.

Local Open Scope string_scope.
Local Open Scope Z_scope.

(** ** The Python run time the cells rely on *)

Module Py.

(** An exception: the name of its class and its message. *)
Record pyexc := PyExc { exc_class : string; exc_msg : string }.

Inductive result (A : Type) : Type :=
| Ok (a : A)
| Raise (e : pyexc).
Arguments Ok {A} a.
Arguments Raise {A} e.

(** Contents of a file: [bytes]. *)
Definition bytes := list Byte.byte.

(** A name of the working directory denotes a regular file or a
    directory; an absent name denotes nothing. *)
Inductive node :=
| File (content : bytes)
| Dir.

(** What a run lets the outside observe. *)
Inductive event :=
| EvGet (url : string)                      (* requests.get(url) *)
| EvPrint (msg : string)                    (* print(msg) *)
| EvWrite (fname : string) (content : bytes) (* open(fname, "wb") + write *)
| EvPredict.                                (* model.predict(X) *)

Record world := World { files : gmap string node; log : list event }.

Definition M (A : Type) : Type := world -> result A * world.

Definition ret {A} (a : A) : M A := fun w => (Ok a, w).

Definition bind {A B} (c : M A) (k : A -> M B) : M B :=
  fun w =>
    match c w with
    | (Ok a, w') => k a w'
    | (Raise e, w') => (Raise e, w')
    end.

Definition raise {A} (e : pyexc) : M A := fun w => (Raise e, w).

Definition lift {A} (r : result A) : M A := fun w => (r, w).

Definition emit (ev : event) : M unit :=
  fun w => (Ok tt, World (files w) (log w ++ [ev])).

(** [try: body / except <class>: handler / else: orelse]. *)
Definition try_except_else {A B}
    (body : M A) (catches : pyexc -> bool) (handler : M B)
    (orelse : A -> M B) : M B :=
  fun w =>
    match body w with
    | (Ok a, w') => orelse a w'
    | (Raise e, w') => if catches e then handler w' else (Raise e, w')
    end.

Definition print (msg : string) : M unit := emit (EvPrint msg).

(** [os.path.isfile]: true for a regular file only. *)
Definition os_path_isfile (fname : string) : M bool :=
  fun w =>
    (Ok match files w !! fname with
        | Some (File _) => true
        | _ => false
        end, w).

(** The exceptions of [open]: the message gives the error number, its
    text and the name of the file as [repr] shows it, which for a name
    without quote, backslash or unprintable character is the name between
    single quotes. *)
Definition FileNotFoundError (name : string) : pyexc :=
  PyExc "FileNotFoundError"
    ("[Errno 2] No such file or directory: '" ++ name ++ "'").

Definition IsADirectoryError (name : string) : pyexc :=
  PyExc "IsADirectoryError"
    ("[Errno 21] Is a directory: '" ++ name ++ "'").

(** [with open(fname, "wb") as fid: fid.write(content)]: the file is
    created or truncated, then holds [content]; a directory of that name
    makes [open] raise. *)
Definition write_file (fname : string) (content : bytes) : M unit :=
  fun w =>
    match files w !! fname with
    | Some Dir =>
        (Raise (IsADirectoryError fname), w)
    | _ =>
        (Ok tt,
         World (<[fname := File content]> (files w))
               (log w ++ [EvWrite fname content]))
    end.

Definition NotImplementedError (msg : string) : pyexc :=
  PyExc "NotImplementedError" msg.

(** Values the exercise functions handle: the [...] placeholder, a
    float, an array of floats. *)
Inductive value :=
| VEllipsis
| VFloat (x : R)
| VArray (xs : list R).

End Py.

Import Py.

Notation "x <- c ;; k" := (bind c (fun x => k))
(at level 100, c at next level, right associativity).
Notation "c ;;; k" := (bind c (fun _ => k))
(at level 100, right associativity).

(** ** The "Data retrieval and loading" cell *)

Module Retrieval.

Definition url := "https://osf.io/r9gh8/download".
Definition fname := "W1D4_steinmetz_data.npz".
Definition expected_md5 := "d19716354fed0981267456b80db07ea8".

(** [requests.codes.ok] *)
Definition codes_ok : Z := 200.

Record response := Response { status_code : Z; content : bytes }.

(** [requests.ConnectionError] and its subclasses in [requests]. *)
Definition is_ConnectionError (e : pyexc) : bool :=
  bool_decide (exc_class e ∈
    ["ConnectionError"; "ProxyError"; "SSLError"; "ConnectTimeout"]).

Section Cell.

(** [hashlib.md5(b).hexdigest()] *)
Variable md5_hexdigest : bytes -> string.

(** What the network does with a GET to a given address in this run:
    a response, or the exception [requests.get] raises. *)
Variable net : string -> result response.

Definition requests_get (u : string) : M response :=
  emit (EvGet u) ;;; lift (net u).

Definition retrieval_cell : M unit :=
  present <- os_path_isfile fname ;;
  if negb present then
    try_except_else (requests_get url) is_ConnectionError
      (print "!!! Failed to download data !!!")
      (fun r =>
         if negb (status_code r =? codes_ok) then
           print "!!! Failed to download data !!!"
         else if negb (String.eqb (md5_hexdigest (content r)) expected_md5) then
           print "!!! Data download appears corrupted !!!"
         else
           write_file fname (content r))
  else ret tt.

End Cell.

End Retrieval.

(** ** The loader of the same cell *)

Module Loader.

Section Load.

(** Arrays are opaque here: the loader only moves them around. *)
Variable ndarray : Type.

(** What [np.load] makes of the bytes of a file: the named arrays of an
    archive, in the order of [NpzFile.files], or the exception it raises
    on bytes that are no archive. *)
Variable np_parse : bytes -> result (list (string * ndarray)).

(** [np.load(data_fname)]: opening the file for reading fails on a name
    that denotes nothing and on a directory. *)
Definition np_load (data_fname : string) : M (list (string * ndarray)) :=
  fun w =>
    match files w !! data_fname with
    | None => (Raise (FileNotFoundError data_fname), w)
    | Some Dir => (Raise (IsADirectoryError data_fname), w)
    | Some (File c) => (np_parse c, w)
    end.

(** [dict] applied to the keyword expansion of [dobj]: the keys of the
    mapping are visited in order and each one is bound to its array; a
    key met twice is a [TypeError]. *)
Fixpoint dict_kwargs (dobj : list (string * ndarray))
    (acc : gmap string ndarray) : result (gmap string ndarray) :=
  match dobj with
  | [] => Ok acc
  | (key, val) :: rest =>
      match acc !! key with
      | Some _ =>
          Raise (PyExc "TypeError"
                   ("dict() got multiple values for keyword argument '"
                      ++ key ++ "'"))
      | None => dict_kwargs rest (<[key := val]> acc)
      end
  end.

Definition load_steinmetz_data (data_fname : string)
    : M (gmap string ndarray) :=
  dobj <- np_load data_fname ;;
  data <- lift (dict_kwargs dobj ∅) ;;
  ret data.

End Load.

Arguments np_load {ndarray} np_parse data_fname.
Arguments dict_kwargs {ndarray} dobj acc.
Arguments load_steinmetz_data {ndarray} np_parse data_fname.

(** The call [load_steinmetz_data()] of the notebook: [data_fname]
    defaults to [fname]. *)
Definition load_default {ndarray} np_parse : M (gmap string ndarray) :=
  load_steinmetz_data np_parse Retrieval.fname.

End Loader.

(** ** The coding exercises, as shipped *)

Module Exercises.

(** Coding Exercise 1.1.  The [raise] is the first statement of the
    body; the two statements after it bind the placeholder and return
    it. *)
Definition sigmoid (z : value) : M value :=
  raise (A := unit)
    (NotImplementedError "Student exercise: implement the sigmoid function") ;;;
  let sigmoid := VEllipsis in
  ret sigmoid.

(** A fitted classifier, seen through [predict] only. *)
Record estimator := Estimator { predict_labels : list (list R) -> list Z }.

Definition predict (model : estimator) (X : list (list R)) : M (list Z) :=
  emit EvPredict ;;; ret (predict_labels model X).

(** Coding Exercise 2.4. *)
Definition compute_accuracy (X : list (list R)) (y : list Z)
    (model : estimator) : M value :=
  raise (A := unit)
    (NotImplementedError "Implement the compute_accuracy function") ;;;
  y_pred <- predict model X ;;
  let accuracy := VEllipsis in
  ret accuracy.

End Exercises.

(** ** What the notebook's text says the exercises are to compute *)

Module Documented.

(** Section 1.1 of the notebook: sigma(z) = 1 / (1 + exp(-z)), the
    "logistic transform" that the docstring of [sigmoid] names. *)
Definition sigma (z : R) : R := (1 / (1 + exp (- z)))%R.

(** Section 2.4 of the notebook: "the proportion of correct trials, where
    the predicted label matches the true label, out of the total number
    of trials".  With no trial there is no proportion. *)
Definition n_correct (y_pred y : list Z) : nat :=
  length (List.filter (fun p => p.1 =? p.2) (zip y_pred y)).

Definition proportion_correct (y_pred y : list Z) : option Q :=
  match length y with
  | O => None
  | S k => Some (Z.of_nat (n_correct y_pred y) # Pos.of_succ_nat k)
  end.

(** The opposite of a binary label. *)
Definition label_not (l : Z) : Z := if l =? 0 then 1 else 0.

End Documented.

(** ** Observations on a run *)

Module Observe.

Import Retrieval.

Definition is_get (ev : event) : bool :=
  match ev with EvGet _ => true | _ => false end.

Definition is_write (ev : event) : bool :=
  match ev with EvWrite _ _ => true | _ => false end.

Definition count_gets (evs : list event) : nat :=
  length (List.filter is_get evs).

Definition count_writes (evs : list event) : nat :=
  length (List.filter is_write evs).

(** The name denotes a regular file in this world. *)
Definition cached (name : string) (w : world) : bool :=
  match files w !! name with
  | Some (File _) => true
  | _ => false
  end.

(** The three ways a fetch can go wrong that the cell looks for: a
    connection error, a status other than [requests.codes.ok], a content
    whose digest is not the expected one. *)
Definition fetch_fails (md5_hexdigest : bytes -> string)
    (o : result response) : Prop :=
  match o with
  | Raise e => is_ConnectionError e = true
  | Ok r =>
      status_code r ≠ codes_ok ∨ md5_hexdigest (content r) ≠ expected_md5
  end.

(** The exceptions the two exercises raise as shipped. *)
Definition sigmoid_error : pyexc :=
  NotImplementedError "Student exercise: implement the sigmoid function".

Definition compute_accuracy_error : pyexc :=
  NotImplementedError "Implement the compute_accuracy function".

(** The two messages the retrieval cell prints. *)
Definition msg_failed := "!!! Failed to download data !!!".
Definition msg_corrupted := "!!! Data download appears corrupted !!!".

End Observe.

(** ** Sample worlds and networks, for concrete runs *)

Module Sample.

Import Retrieval.

(** A working directory with nothing in it and nothing logged yet. *)
Definition w_empty : world := World ∅ [].

(** A working directory where [fname] is already a regular file. *)
Definition w_cached : world :=
  World {[ fname := File [Byte.x50; Byte.x4b] ]} [].

(** A network that answers every GET with the given status and body. *)
Definition net_answers (status : Z) (body : bytes)
    : string -> result response :=
  fun _ => Ok (Response status body).

(** A network that refuses every connection. *)
Definition net_refuses : string -> result response :=
  fun _ => Raise (PyExc "ConnectionError" "connection refused").

(** A stand-in digest that gives every content the digest [d]. *)
Definition digest_always (d : string) : bytes -> string := fun _ => d.

(** A stand-in for [np.load] on bytes: arrays are their lengths here,
    and any non-empty content is an archive of the two arrays of the
    data set; an empty file is no archive. *)
Definition parse_two (c : bytes) : result (list (string * nat)) :=
  match c with
  | [] => Raise (PyExc "EOFError" "No data left in file")
  | _ => Ok [("spikes", 276%nat); ("choices", 276%nat)]
  end.

(** A classifier that gives every row the label [l]. *)
Definition model_always (l : Z) : Exercises.estimator :=
  Exercises.Estimator (map (fun _ => l)).

(** Two trials of one neuron each. *)
Definition X_two : list (list R) := [[0%R]; [1%R]].

(** The same with an archive that holds one name twice. *)
Definition parse_twice (c : bytes) : result (list (string * nat)) :=
  Ok [("spikes", 1%nat); ("spikes", 2%nat)].

End Sample.

(** ** The cells that use the loaded data *)

Module Setup.

(** [d[key]] on a dictionary: a missing key is a [KeyError] whose
    message is the [repr] of the key. *)
Definition dict_getitem {A} (d : gmap string A) (key : string) : result A :=
  match d !! key with
  | Some v => Ok v
  | None => Raise (PyExc "KeyError" ("'" ++ key ++ "'"))
  end.

(** The cell of Section 2.1 that binds [y] and then [X]; the pair stands
    for the two bindings, in that order. *)
Definition select_cell {A} (data : gmap string A) : M (A * A) :=
  y <- lift (dict_getitem data "choices") ;;
  X <- lift (dict_getitem data "spikes") ;;
  ret (y, X).

(** A Python dictionary is a mapping that also keeps the order in which
    its keys were inserted. *)
Record pydict (A : Type) :=
  PyDict { insertion_order : list string; mapping : gmap string A }.
Arguments PyDict {A} insertion_order mapping.
Arguments insertion_order {A} p.
Arguments mapping {A} p.

(** [d.items()]: the pairs of the dictionary, in the order of
    insertion. *)
Definition items {A} (d : pydict A) : list (string * A) :=
  omap (fun key => (fun v => (key, v)) <$> mapping d !! key)
       (insertion_order d).

(** [str] of a tuple of integers, as [print] shows a shape. *)
Definition str_tuple (t : list nat) : string :=
  match t with
  | [] => "()"
  | [n] => "(" ++ pretty n ++ ",)"
  | _ => "(" ++ String.concat ", " (map pretty t) ++ ")"
  end.

(** [for x in l: body] *)
Fixpoint for_each {A} (l : list A) (body : A -> M unit) : M unit :=
  match l with
  | [] => ret tt
  | x :: l' => body x ;;; for_each l' body
  end.

Section RunAll.

Context {ndarray : Type}.
Variable md5_hexdigest : bytes -> string.
Variable net : string -> result Retrieval.response.
Variable np_parse : bytes -> result (list (string * ndarray)).

(** [val.shape] *)
Variable shape : ndarray -> list nat.

(** [load_steinmetz_data] once more, with the order of the dictionary it
    returns: [dict] inserts the keys in the order in which the archive
    lists them. *)
Definition load_steinmetz_data_ordered (data_fname : string)
    : M (pydict ndarray) :=
  dobj <- Loader.np_load np_parse data_fname ;;
  data <- lift (Loader.dict_kwargs dobj ∅) ;;
  ret (PyDict dobj.*1 data).

(** What [print(key, val.shape)] writes. *)
Definition shape_line (kv : string * ndarray) : string :=
  kv.1 ++ " " ++ str_tuple (shape kv.2).

(** The cell of Section 2.1 that loads the data and prints the shape of
    each array. *)
Definition load_cell : M (pydict ndarray) :=
  data <- load_steinmetz_data_ordered Retrieval.fname ;;
  for_each (items data) (fun kv => print (shape_line kv)) ;;;
  ret data.

(** The data cells run one after the other, as "Run All" does: the
    retrieval cell, the cell that loads and prints, the bindings of [y]
    and [X].  The first exception ends the run. *)
Definition run_data_cells : M (ndarray * ndarray) :=
  Retrieval.retrieval_cell md5_hexdigest net ;;;
  data <- load_cell ;;
  select_cell (mapping data).

End RunAll.

End Setup.

(** ** The choice of the best C in [plot_model_selection] *)

Module ModelSelection.

(** The scan of [np.argmax]: [best_i] is the index of the largest value
    seen so far, [best] that value, [i] the index of the head of the
    rest.  A later value replaces the best one only when it is strictly
    larger, so that among equal maxima the first one wins.  Accuracies
    are fractions: the floats are taken as the rationals they denote,
    none of them a NaN. *)
Fixpoint argmax_scan (best_i : nat) (best : Q) (i : nat) (rest : list Q)
    : nat :=
  match rest with
  | [] => best_i
  | x :: rest' =>
      if Qle_bool x best
      then argmax_scan best_i best (S i) rest'
      else argmax_scan i x (S i) rest'
  end.

(** [np.argmax(a)] for a one-dimensional [a]. *)
Definition np_argmax (a : list Q) : result nat :=
  match a with
  | [] =>
      Raise (PyExc "ValueError"
               "attempt to get argmax of an empty sequence")
  | x :: rest => Ok (argmax_scan 0 x 1 rest)
  end.

(** [seq[i]] for an index that is not negative. *)
Definition getitem {A} (seq : list A) (i : nat) : result A :=
  match seq !! i with
  | Some v => Ok v
  | None => Raise (PyExc "IndexError" "index out of range")
  end.

(** The binding [best_C = C_values[np.argmax(accuracies)]]. *)
Definition best_C (C_values accuracies : list Q) : result Q :=
  match np_argmax accuracies with
  | Ok i => getitem C_values i
  | Raise e => Raise e
  end.

(** Position [i] holds [m], the first largest value of [a]: no value of
    [a] is larger, and every value before [i] is strictly smaller. *)
Definition first_largest (a : list Q) (i : nat) (m : Q) : Prop :=
  a !! i = Some m
  ∧ (∀ j x, a !! j = Some x -> (x <= m)%Q)
  ∧ (∀ j x, (j < i)%nat -> a !! j = Some x -> (x < m)%Q).

End ModelSelection.

(** ** More observations and samples *)

Module ObserveMore.

Definition is_print (ev : event) : bool :=
  match ev with EvPrint _ => true | _ => false end.

Definition count_prints (evs : list event) : nat :=
  length (List.filter is_print evs).

(** The fetch answered with status [requests.codes.ok] and a content of
    the expected digest. *)
Definition verified (md5_hexdigest : bytes -> string)
    (r : Retrieval.response) : Prop :=
  Retrieval.status_code r = Retrieval.codes_ok
  ∧ md5_hexdigest (Retrieval.content r) = Retrieval.expected_md5.

(** A stand-in for [np.load] on bytes in which the order of the two
    arrays depends on the file: a file of one byte stores the spikes
    first, a longer one the choices first. *)
Definition parse_either (c : bytes) : result (list (string * nat)) :=
  match c with
  | [] => Raise (PyExc "EOFError" "No data left in file")
  | [_] => Ok [("spikes", 698%nat); ("choices", 276%nat)]
  | _ => Ok [("choices", 276%nat); ("spikes", 698%nat)]
  end.

(** A stand-in for [np.load] on bytes whose archives lack the choices. *)
Definition parse_spikes_only (c : bytes) : result (list (string * nat)) :=
  Ok [("spikes", 698%nat)].

(** A working directory where [fname] is a file of one byte. *)
Definition w_cached_one : world :=
  World {[ Retrieval.fname := File [Byte.x50] ]} [].

(** The stand-in arrays are their lengths: one dimension. *)
Definition shape_flat (n : nat) : list nat := [n].

(** A working directory where [fname] is a directory. *)
Definition w_dir : world := World {[ Retrieval.fname := Dir ]} [].

End ObserveMore.

(** * Properties *)

Import Retrieval Observe Sample.

(** ** The retrieval cell *)

Lemma retrieval_cached md5 net w :
  cached fname w = true -> retrieval_cell md5 net w = (Ok tt, w).
Proof.
  unfold cached, retrieval_cell, bind, os_path_isfile.
  destruct (files w !! fname) as [[c|]|]; simpl; intros H; try discriminate.
  reflexivity.
Qed.

(** One equation for every run that starts without a cached file. *)
Lemma retrieval_not_cached md5 net w :
  cached fname w = false ->
  retrieval_cell md5 net w =
    let w1 := World (files w) (log w ++ [EvGet url]) in
    match net url with
    | Raise e =>
        if is_ConnectionError e then print msg_failed w1 else (Raise e, w1)
    | Ok r =>
        if negb (status_code r =? codes_ok) then print msg_failed w1
        else if negb (String.eqb (md5 (content r)) expected_md5)
             then print msg_corrupted w1
             else write_file fname (content r) w1
    end.
Proof.
  unfold cached, retrieval_cell, bind, os_path_isfile, try_except_else,
    requests_get, bind, emit, lift.
  destruct (files w !! fname) as [[c|]|]; simpl; intros H; try discriminate;
    destruct (net url) as [r|e]; try reflexivity;
    destruct (negb (status_code r =? codes_ok)); try reflexivity;
    destruct (negb (String.eqb (md5 (content r)) expected_md5)); reflexivity.
Qed.

Lemma print_run msg fs l :
  print msg (World fs l) = (Ok tt, World fs (l ++ [EvPrint msg])).
Proof. reflexivity. Qed.

Lemma app_two {A} (l : list A) a b :
  ((l ++ [a]) ++ [b] = l ++ [a; b])%list.
Proof. by rewrite <- app_assoc. Qed.

Lemma status_ok_iff r :
  negb (status_code r =? codes_ok) = false <-> status_code r = codes_ok.
Proof. rewrite negb_false_iff. apply Z.eqb_eq. Qed.

Lemma digest_ok_iff (md5 : bytes -> string) c :
  negb (String.eqb (md5 c) expected_md5) = false <-> md5 c = expected_md5.
Proof. rewrite negb_false_iff. apply String.eqb_eq. Qed.

(** The file system after a run: untouched, or holding the verified
    content under [fname]. *)
Lemma retrieval_files md5 net w :
  files (retrieval_cell md5 net w).2 = files w
  ∨ ∃ r, net url = Ok r ∧ status_code r = codes_ok
         ∧ md5 (content r) = expected_md5
         ∧ files (retrieval_cell md5 net w).2
           = <[fname := File (content r)]> (files w).
Proof.
  destruct (cached fname w) eqn:Hc.
  - rewrite retrieval_cached by done. by left.
  - rewrite retrieval_not_cached by done. cbv zeta.
    destruct (net url) as [r|e].
    + destruct (negb (status_code r =? codes_ok)) eqn:Hs; [by left|].
      destruct (negb (String.eqb (md5 (content r)) expected_md5)) eqn:Hd;
        [by left|].
      apply status_ok_iff in Hs. apply digest_ok_iff in Hd.
      unfold write_file; simpl.
      destruct (files w !! fname) as [[c|]|]; simpl; [|by left|];
        right; exists r; done.
    + destruct (is_ConnectionError e); by left.
Qed.

(** Three concrete runs from an empty working directory. *)
Example run_connection_refused :
  retrieval_cell (digest_always expected_md5) net_refuses w_empty
  = (Ok tt, World ∅ [EvGet url; EvPrint msg_failed]).
Proof. reflexivity. Qed.

Example run_not_found :
  retrieval_cell (digest_always expected_md5) (net_answers 404 []) w_empty
  = (Ok tt, World ∅ [EvGet url; EvPrint msg_failed]).
Proof. reflexivity. Qed.

Example run_verified :
  retrieval_cell (digest_always expected_md5)
    (net_answers 200 [Byte.x50]) w_empty
  = (Ok tt, World {[ fname := File [Byte.x50] ]}
              [EvGet url; EvWrite fname [Byte.x50]]).
Proof. vm_compute. reflexivity. Qed.

(** An exception of [requests.get] that is no connection error is not
    caught: it ends the cell. *)
Example run_read_timeout :
  retrieval_cell (digest_always expected_md5)
    (fun _ => Raise (PyExc "ReadTimeout" "timed out")) w_empty
  = (Raise (PyExc "ReadTimeout" "timed out"), World ∅ [EvGet url]).
Proof. reflexivity. Qed.

Lemma cached_same_files name w1 w2 :
  files w1 = files w2 -> cached name w1 = cached name w2.
Proof. unfold cached. by intros ->. Qed.

(** C1.  The cell persists the download only when its MD5 digest is the
    expected one.  In every run that starts without a cached file and in
    which the fetch raises a connection error, answers with a status other
    than 200, or answers with a content of another digest, the cell prints
    an error message, ends normally, and leaves the file system as it
    found it: no file [fname] is created.  And whenever a run changes what
    [fname] denotes, the fetch answered 200 with a content of the expected
    digest, which is what [fname] then holds. *)
Theorem retrieval_failure_reported_no_file md5 net w :
  (cached fname w = false -> fetch_fails md5 (net url) ->
     ∃ msg, (msg = msg_failed ∨ msg = msg_corrupted)
       ∧ retrieval_cell md5 net w
         = (Ok tt, World (files w) (log w ++ [EvGet url; EvPrint msg]))
       ∧ cached fname (retrieval_cell md5 net w).2 = false)
  ∧ (files (retrieval_cell md5 net w).2 !! fname ≠ files w !! fname ->
     ∃ r, net url = Ok r ∧ status_code r = codes_ok
          ∧ md5 (content r) = expected_md5
          ∧ files (retrieval_cell md5 net w).2 !! fname
            = Some (File (content r))).
Proof.
  split.
  - intros Hc Hf.
    assert (∃ msg, (msg = msg_failed ∨ msg = msg_corrupted)
       ∧ retrieval_cell md5 net w
         = (Ok tt, World (files w) (log w ++ [EvGet url; EvPrint msg])))
      as (msg & Hmsg & Hrun).
    { rewrite retrieval_not_cached by done. cbv zeta.
      unfold fetch_fails in Hf. destruct (net url) as [r|e].
      - destruct (negb (status_code r =? codes_ok)) eqn:Hs.
        + exists msg_failed. rewrite print_run, app_two. auto.
        + apply status_ok_iff in Hs. destruct Hf as [Hf|Hf]; [done|].
          destruct (negb (String.eqb (md5 (content r)) expected_md5)) eqn:Hd.
          * exists msg_corrupted. rewrite print_run, app_two. auto.
          * apply digest_ok_iff in Hd. done.
      - rewrite Hf. exists msg_failed. rewrite print_run, app_two. auto. }
    exists msg. split; [done|]. split; [done|].
    rewrite Hrun. simpl. rewrite <- Hc. by apply cached_same_files.
  - intros Hch.
    destruct (retrieval_files md5 net w) as [Heq|(r & Hn & Hs & Hd & Heq)].
    + rewrite Heq in Hch. done.
    + exists r. rewrite Heq, lookup_insert_eq. done.
Qed.

(** C8.  A run of the cell adds to the log exactly one GET when it starts
    without a cached file and none when the file is cached; every GET goes
    to [url]; there is at most one write.  A run that starts with the file
    cached does nothing at all, and after a run that wrote the file every
    later run, whatever the network would answer, does nothing at all. *)
Theorem retrieval_single_get md5 net w :
  ∃ evs,
    log (retrieval_cell md5 net w).2 = (log w ++ evs)%list
    ∧ count_gets evs = (if cached fname w then 0 else 1)%nat
    ∧ Forall (λ ev, is_get ev = true -> ev = EvGet url) evs
    ∧ (count_writes evs ≤ 1)%nat
    ∧ (cached fname w = true -> retrieval_cell md5 net w = (Ok tt, w))
    ∧ (count_writes evs = 1%nat ->
       ∀ net', retrieval_cell md5 net' (retrieval_cell md5 net w).2
               = (Ok tt, (retrieval_cell md5 net w).2)).
Proof.
  destruct (cached fname w) eqn:Hc.
  - rewrite retrieval_cached by done. exists []. simpl.
    rewrite app_nil_r. repeat split; auto. discriminate.
  - rewrite retrieval_not_cached by done. cbv zeta.
    assert (Hget : Forall (λ ev, is_get ev = true -> ev = EvGet url)
                     [EvGet url]) by (repeat constructor).
    assert (Hpr : ∀ m, Forall (λ ev, is_get ev = true -> ev = EvGet url)
                     [EvGet url; EvPrint m]).
    { intros m. repeat constructor. discriminate. }
    destruct (net url) as [r|e].
    + destruct (negb (status_code r =? codes_ok)).
      { exists [EvGet url; EvPrint msg_failed]. rewrite print_run, app_two.
        simpl. repeat split; auto; discriminate. }
      destruct (negb (String.eqb (md5 (content r)) expected_md5)).
      { exists [EvGet url; EvPrint msg_corrupted]. rewrite print_run, app_two.
        simpl. repeat split; auto; discriminate. }
      unfold write_file. simpl.
      destruct (files w !! fname) as [[c|]|] eqn:Hf; simpl.
      * unfold cached in Hc. rewrite Hf in Hc. discriminate.
      * exists [EvGet url]. simpl. repeat split; auto; discriminate.
      * exists [EvGet url; EvWrite fname (content r)]. rewrite app_two.
        simpl. repeat split; auto; try discriminate.
        { repeat constructor. discriminate. }
        intros _ net'. apply retrieval_cached.
        unfold cached. simpl. by rewrite lookup_insert_eq.
    + destruct (is_ConnectionError e).
      * exists [EvGet url; EvPrint msg_failed]. rewrite print_run, app_two.
        simpl. repeat split; auto; discriminate.
      * exists [EvGet url]. simpl. repeat split; auto; discriminate.
Qed.

Lemma retrieval_failure_reported_no_file_witness :
  (∃ msg, (msg = msg_failed ∨ msg = msg_corrupted)
     ∧ retrieval_cell (digest_always "00") (net_answers 200 []) w_empty
       = (Ok tt, World ∅ [EvGet url; EvPrint msg])
     ∧ cached fname
         (retrieval_cell (digest_always "00") (net_answers 200 []) w_empty).2
       = false)
  ∧ (∃ r, net_answers 200 [Byte.x50] url = Ok r
       ∧ status_code r = codes_ok
       ∧ digest_always expected_md5 (content r) = expected_md5
       ∧ files (retrieval_cell (digest_always expected_md5)
                  (net_answers 200 [Byte.x50]) w_empty).2 !! fname
         = Some (File (content r))).
Proof.
  split.
  - apply (proj1 (retrieval_failure_reported_no_file
                    (digest_always "00") (net_answers 200 []) w_empty)).
    + reflexivity.
    + right. vm_compute. discriminate.
  - apply (proj2 (retrieval_failure_reported_no_file
                    (digest_always expected_md5)
                    (net_answers 200 [Byte.x50]) w_empty)).
    vm_compute. discriminate.
Defined.

Lemma retrieval_single_get_witness :
  retrieval_cell (digest_always expected_md5) net_refuses w_cached
    = (Ok tt, w_cached)
  ∧ ∀ net',
      retrieval_cell (digest_always expected_md5) net'
        (retrieval_cell (digest_always expected_md5)
           (net_answers 200 [Byte.x50]) w_empty).2
      = (Ok tt,
         (retrieval_cell (digest_always expected_md5)
            (net_answers 200 [Byte.x50]) w_empty).2).
Proof.
  split.
  - destruct (retrieval_single_get (digest_always expected_md5)
                net_refuses w_cached) as (evs & _ & _ & _ & _ & H & _).
    apply H. reflexivity.
  - destruct (retrieval_single_get (digest_always expected_md5)
                (net_answers 200 [Byte.x50]) w_empty)
      as (evs & Hlog & _ & _ & _ & _ & H).
    apply H. vm_compute in Hlog. rewrite <- Hlog. reflexivity.
Defined.

(** ** The loader *)

Import Loader.

Section LoaderFacts.

Context {ndarray : Type}.
Implicit Types (dobj : list (string * ndarray)) (acc : gmap string ndarray).

(** Keys that are pairwise distinct and new to [acc] are all bound. *)
Lemma dict_kwargs_fresh dobj acc :
  NoDup dobj.*1 ->
  (∀ key, key ∈ dobj.*1 -> acc !! key = None) ->
  dict_kwargs dobj acc = Ok (list_to_map dobj ∪ acc).
Proof.
  revert acc. induction dobj as [|[key val] rest IH]; intros acc Hnd Hnew.
  - simpl. by rewrite (left_id_L ∅ (∪)).
  - simpl in *. apply NoDup_cons in Hnd as [Hkey Hnd].
    rewrite (Hnew key) by set_solver.
    rewrite IH; [|done|].
    + f_equal. rewrite <- insert_union_l. symmetry. apply insert_union_r.
      by apply not_elem_of_list_to_map.
    + intros k Hk. rewrite lookup_insert_ne.
      * apply Hnew. apply elem_of_cons; by right.
      * by intros ->.
Qed.

(** A key that is already bound, or that comes twice, stops the
    construction with an exception. *)
Lemma dict_kwargs_clash dobj acc :
  (∃ key, key ∈ dobj.*1 ∧ is_Some (acc !! key)) ∨ ¬ NoDup dobj.*1 ->
  ∃ e, dict_kwargs dobj acc = Raise e ∧ exc_class e = "TypeError".
Proof.
  revert acc. induction dobj as [|[key val] rest IH]; intros acc H.
  - destruct H as [(k & Hk & _)|H]; [set_solver|]. destruct H. constructor.
  - simpl in *. destruct (acc !! key) as [v|] eqn:Hacc; [eauto|].
    apply IH. destruct (decide (key ∈ rest.*1)) as [Hin|Hnin].
    + left. exists key. by rewrite lookup_insert_eq.
    + destruct H as [(k & Hk & Hsome)|H].
      * left. exists k. apply elem_of_cons in Hk as [->|Hk].
        { rewrite Hacc in Hsome. by destruct Hsome. }
        split; [done|]. rewrite lookup_insert_ne; [done|]. by intros ->.
      * right. intros Hnd. apply H. by constructor.
Qed.

Lemma np_load_absent np_parse data_fname w :
  files w !! data_fname = None ->
  np_load (ndarray := ndarray) np_parse data_fname w
  = (Raise (FileNotFoundError data_fname), w).
Proof. unfold np_load. by intros ->. Qed.

Lemma load_absent np_parse data_fname w :
  files w !! data_fname = None ->
  load_steinmetz_data (ndarray := ndarray) np_parse data_fname w
  = (Raise (FileNotFoundError data_fname), w).
Proof.
  intros H. unfold load_steinmetz_data, bind. by rewrite np_load_absent.
Qed.

End LoaderFacts.

(** C9, as stated, fails: a regular file that [np.load] reads as an
    archive holding one name twice is a readable archive file, and the
    loader returns no dictionary for it. *)
Lemma load_every_archive_counterexample :
  files w_cached !! fname = Some (File [Byte.x50; Byte.x4b])
  ∧ parse_twice [Byte.x50; Byte.x4b]
    = Ok [("spikes", 1%nat); ("spikes", 2%nat)]
  ∧ ¬ ∃ data,
        load_steinmetz_data parse_twice fname w_cached = (Ok data, w_cached).
Proof.
  split; [reflexivity|]. split; [reflexivity|].
  intros [data H]. vm_compute in H. discriminate.
Qed.

(** C9, amended.  When [data_fname] is a regular file whose bytes [np.load] reads
    as an archive of arrays under pairwise distinct names, the loader
    returns a dictionary and leaves the world alone; the dictionary binds
    a name to an array exactly when the archive stores that array under
    that name, and it has as many entries as the archive has arrays. *)
Theorem load_one_entry_per_array {ndarray} np_parse data_fname w c
    (arrays : list (string * ndarray)) :
  files w !! data_fname = Some (File c) ->
  np_parse c = Ok arrays ->
  NoDup arrays.*1 ->
  ∃ data, load_steinmetz_data np_parse data_fname w = (Ok data, w)
    ∧ (∀ key val, data !! key = Some val ↔ (key, val) ∈ arrays)
    ∧ size data = length arrays.
Proof.
  intros Hfile Hparse Hnd. exists (list_to_map arrays).
  split; [|split].
  - unfold load_steinmetz_data, bind, np_load, lift, ret.
    rewrite Hfile, Hparse, dict_kwargs_fresh; [|done|set_solver].
    by rewrite (right_id_L ∅ (∪)).
  - intros key val. symmetry. by apply elem_of_list_to_map.
  - by apply map_size_list_to_map.
Qed.

Lemma load_one_entry_per_array_witness :
  ∃ data, load_steinmetz_data parse_two fname w_cached = (Ok data, w_cached)
    ∧ (∀ key val, data !! key = Some val
         ↔ (key, val) ∈ [("spikes", 276%nat); ("choices", 276%nat)])
    ∧ size data = 2%nat.
Proof.
  apply (load_one_entry_per_array parse_two fname w_cached
           [Byte.x50; Byte.x4b]).
  - reflexivity.
  - reflexivity.
  - apply (bool_decide_unpack _). vm_compute. exact I.
Defined.

(** An archive that holds a name twice makes the loader raise. *)
Example load_duplicate_name :
  ∃ e, load_steinmetz_data parse_twice fname w_cached = (Raise e, w_cached)
       ∧ exc_class e = "TypeError".
Proof. eexists. split; reflexivity. Qed.

(** C10.  When [data_fname] denotes nothing in the working directory, the
    loader returns no dictionary: the [FileNotFoundError] raised on
    opening the file is the outcome of the call, and the world is left
    as it was. *)
Theorem load_absent_file_propagates {ndarray}
    (np_parse : bytes -> result (list (string * ndarray))) data_fname w :
  files w !! data_fname = None ->
  ∃ e, load_steinmetz_data np_parse data_fname w = (Raise e, w)
       ∧ exc_class e = "FileNotFoundError"
       ∧ ∀ data, (load_steinmetz_data np_parse data_fname w).1 ≠ Ok data.
Proof.
  intros H. exists (FileNotFoundError data_fname).
  rewrite load_absent by done. repeat split. discriminate.
Qed.

Lemma load_absent_file_propagates_witness :
  ∃ e, load_steinmetz_data parse_two fname w_empty = (Raise e, w_empty)
       ∧ exc_class e = "FileNotFoundError"
       ∧ ∀ data, (load_steinmetz_data parse_two fname w_empty).1 ≠ Ok data.
Proof.
  apply (load_absent_file_propagates parse_two fname w_empty).
  reflexivity.
Defined.

(** The situation the notebook can really reach: the download failed in
    one of the three ways the cell reports, so that the next cell's call
    [load_steinmetz_data()] raises. *)
Lemma load_after_failed_retrieval {ndarray}
    (np_parse : bytes -> result (list (string * ndarray))) md5 net w :
  files w !! fname = None ->
  fetch_fails md5 (net url) ->
  (load_default np_parse (retrieval_cell md5 net w).2).1
  = Raise (FileNotFoundError fname).
Proof.
  intros Hnone Hfail.
  destruct (retrieval_files md5 net w) as [Heq|(r & Hn & Hs & Hd & _)].
  - unfold load_default. rewrite load_absent; [done|]. by rewrite Heq.
  - exfalso. unfold fetch_fails in Hfail. rewrite Hn in Hfail.
    destruct Hfail; done.
Qed.

(** ** The logistic function of the notebook's text *)

Import Documented.

Section Logistic.

Local Open Scope R_scope.

Lemma sigma_denominator_pos z : 0 < 1 + exp (- z).
Proof. pose proof (exp_pos (- z)). lra. Qed.

Lemma sigma_range z : 0 < sigma z < 1.
Proof.
  unfold sigma. pose proof (exp_pos (- z)) as He.
  assert (Hd : 0 < 1 + exp (- z)) by lra.
  split.
  - apply Rdiv_lt_0_compat; lra.
  - apply (Rmult_lt_reg_r (1 + exp (- z))); [done|].
    unfold Rdiv. rewrite Rmult_assoc, Rinv_l by lra. lra.
Qed.

Lemma sigma_zero : sigma 0 = 1 / 2.
Proof. unfold sigma. rewrite Ropp_0, exp_0. lra. Qed.

Lemma sigma_opp z : sigma (- z) = 1 - sigma z.
Proof.
  unfold sigma. rewrite Ropp_involutive, exp_Ropp.
  pose proof (exp_pos z) as He. field. split; lra.
Qed.

Lemma sigma_increasing z1 z2 : z1 < z2 -> sigma z1 < sigma z2.
Proof.
  intros Hlt. unfold sigma, Rdiv. rewrite !Rmult_1_l.
  apply Rinv_lt_contravar.
  - apply Rmult_lt_0_compat; apply sigma_denominator_pos.
  - apply Rplus_lt_compat_l, exp_increasing. lra.
Qed.

End Logistic.

(** ** The proportion of correct trials of the notebook's text *)

Section Proportion.

Implicit Types (y_pred y : list Z).

Lemma n_correct_le y_pred y : (n_correct y_pred y ≤ length y)%nat.
Proof.
  unfold n_correct. revert y.
  induction y_pred as [|p ps IH]; intros [|l ls]; simpl; try lia.
  specialize (IH ls). destruct (p =? l); simpl; lia.
Qed.

Lemma n_correct_same y : n_correct y y = length y.
Proof.
  unfold n_correct. induction y as [|l ls IH]; simpl; [done|].
  rewrite Z.eqb_refl. simpl. by rewrite IH.
Qed.

Lemma label_not_differs l : (l =? label_not l) = false.
Proof.
  unfold label_not. destruct (l =? 0) eqn:H.
  - apply Z.eqb_eq in H as ->. reflexivity.
  - exact H.
Qed.

Lemma n_correct_not y : n_correct y (map label_not y) = 0%nat.
Proof.
  unfold n_correct. induction y as [|l ls IH]; simpl; [done|].
  by rewrite label_not_differs.
Qed.

Lemma label_not_nonempty y : y ≠ [] -> map label_not y ≠ [].
Proof. by destruct y. Qed.

Lemma proportion_defined y_pred y :
  y ≠ [] ->
  ∃ k, length y = S k
       ∧ proportion_correct y_pred y
         = Some (Z.of_nat (n_correct y_pred y) # Pos.of_succ_nat k).
Proof.
  intros Hne. unfold proportion_correct.
  destruct y as [|l ls]; [done|]. simpl. eauto.
Qed.

Lemma proportion_range y_pred y q :
  proportion_correct y_pred y = Some q -> (0 <= q <= 1)%Q.
Proof.
  unfold proportion_correct. pose proof (n_correct_le y_pred y) as Hle.
  destruct (length y) as [|k]; [done|]. intros [= <-].
  unfold Qle. simpl. rewrite Zpos_P_of_succ_nat. lia.
Qed.

End Proportion.

(** ** The exercises as shipped *)

Import Exercises.

Lemma raise_bind {A B} e (k : A -> M B) w :
  bind (raise e) k w = (Raise e, w).
Proof. reflexivity. Qed.

Lemma sigmoid_raises z w : sigmoid z w = (Raise sigmoid_error, w).
Proof. unfold sigmoid. apply raise_bind. Qed.

Lemma compute_accuracy_raises X y model w :
  compute_accuracy X y model w = (Raise compute_accuracy_error, w).
Proof. unfold compute_accuracy. apply raise_bind. Qed.

Lemma sigmoid_no_value z w v w' : sigmoid z w ≠ (Ok v, w').
Proof. rewrite sigmoid_raises. discriminate. Qed.

Lemma compute_accuracy_no_value X y model w v w' :
  compute_accuracy X y model w ≠ (Ok v, w').
Proof. rewrite compute_accuracy_raises. discriminate. Qed.

(** C5.  As shipped, [sigmoid] raises [NotImplementedError] on every
    input and [compute_accuracy] raises it on every triple; the world
    comes back as it was given, so nothing was computed, printed or
    predicted before the exception. *)
Theorem exercises_raise_not_implemented :
  (∀ z w, sigmoid z w = (Raise sigmoid_error, w))
  ∧ (∀ X y model w,
       compute_accuracy X y model w = (Raise compute_accuracy_error, w))
  ∧ exc_class sigmoid_error = "NotImplementedError"
  ∧ exc_class compute_accuracy_error = "NotImplementedError".
Proof.
  split; [intros; apply sigmoid_raises|].
  split; [intros; apply compute_accuracy_raises|].
  split; reflexivity.
Qed.

(** C2, as stated, fails: on the input 0.0 the shipped [sigmoid] does not
    return the value of 1/(1+exp(-z)). *)
Lemma sigmoid_returns_logistic_counterexample :
  ¬ ∃ s w', sigmoid (VFloat 0) w_empty = (Ok (VFloat s), w')
            ∧ s = sigma 0 ∧ (0 < s < 1)%R.
Proof. intros (s & w' & H & _). by apply sigmoid_no_value in H. Qed.

(** C2, amended.  The shipped [sigmoid] has an error condition on every
    input, scalar or array: it raises [NotImplementedError] and returns
    nothing.  The function 1/(1+exp(-z)) that the notebook gives for the
    exercise takes its values strictly between 0 and 1, on a scalar and
    on each element of an array. *)
Theorem sigmoid_stub_logistic_range :
  (∀ z w, ∃ e, sigmoid z w = (Raise e, w)
               ∧ exc_class e = "NotImplementedError")
  ∧ (∀ z : R, sigma z = (1 / (1 + exp (- z)))%R ∧ (0 < sigma z < 1)%R)
  ∧ (∀ zs : list R, Forall (λ s, (0 < s < 1)%R) (map sigma zs)).
Proof.
  split; [|split].
  - intros z w. exists sigmoid_error. by rewrite sigmoid_raises.
  - intros z. split; [reflexivity|apply sigma_range].
  - intros zs. apply Forall_map, Forall_forall. intros z _.
    apply sigma_range.
Qed.

(** C6, as stated, fails: the shipped [sigmoid] gives no pair of values
    at -1 and 1 that add up to 1, and no value 0.5 at 0. *)
Lemma sigmoid_symmetry_counterexample :
  ¬ (∃ a b w1 w2, sigmoid (VFloat (-1)) w_empty = (Ok (VFloat a), w1)
                  ∧ sigmoid (VFloat 1) w_empty = (Ok (VFloat b), w2)
                  ∧ a = (1 - b)%R)
  ∧ ¬ (∃ w', sigmoid (VFloat 0) w_empty = (Ok (VFloat (1 / 2)), w')).
Proof.
  split.
  - intros (a & b & w1 & w2 & H & _). by apply sigmoid_no_value in H.
  - intros (w' & H). by apply sigmoid_no_value in H.
Qed.

(** C6, amended.  The shipped [sigmoid] raises [NotImplementedError] at
    z, at -z and at 0, so it returns no values to compare.  The function
    1/(1+exp(-z)) of the notebook's text satisfies
    sigma(-z) = 1 - sigma(z) for every real z, and sigma(0) = 1/2. *)
Theorem sigmoid_stub_logistic_symmetry :
  (∀ z w, sigmoid (VFloat z) w = (Raise sigmoid_error, w)
          ∧ sigmoid (VFloat (- z)) w = (Raise sigmoid_error, w))
  ∧ (∀ z : R, sigma (- z) = (1 - sigma z)%R)
  ∧ sigma 0 = (1 / 2)%R.
Proof.
  split; [|split].
  - intros z w. by rewrite !sigmoid_raises.
  - apply sigma_opp.
  - apply sigma_zero.
Qed.

(** C7, as stated, fails: the shipped [sigmoid] gives no values at 0 < 1
    that could be in order. *)
Lemma sigmoid_increasing_counterexample :
  ¬ ∃ a b w1 w2, sigmoid (VFloat 0) w_empty = (Ok (VFloat a), w1)
                 ∧ sigmoid (VFloat 1) w_empty = (Ok (VFloat b), w2)
                 ∧ (a < b)%R.
Proof. intros (a & b & w1 & w2 & H & _). by apply sigmoid_no_value in H. Qed.

(** C7, amended.  For reals z1 < z2 the shipped [sigmoid] raises
    [NotImplementedError] at both, and the function 1/(1+exp(-z)) of the
    notebook's text is strictly increasing: sigma(z1) < sigma(z2). *)
Theorem sigmoid_stub_logistic_increasing (z1 z2 : R) :
  (z1 < z2)%R ->
  (sigma z1 < sigma z2)%R
  ∧ ∀ w, sigmoid (VFloat z1) w = (Raise sigmoid_error, w)
         ∧ sigmoid (VFloat z2) w = (Raise sigmoid_error, w).
Proof.
  intros Hlt. split.
  - by apply sigma_increasing.
  - intros w. by rewrite !sigmoid_raises.
Qed.

Lemma sigmoid_stub_logistic_increasing_witness :
  (0 < 1)%R
  ∧ (sigma 0 < sigma 1)%R
  ∧ ∀ w, sigmoid (VFloat 0) w = (Raise sigmoid_error, w)
         ∧ sigmoid (VFloat 1) w = (Raise sigmoid_error, w).
Proof.
  split; [lra|]. apply (sigmoid_stub_logistic_increasing 0 1). lra.
Defined.

(** C3, as stated, fails: with a classifier that predicts the labels y
    themselves, the shipped [compute_accuracy] does not return 1.0. *)
Lemma compute_accuracy_perfect_counterexample :
  predict_labels (model_always 1) X_two = [1; 1]
  ∧ ¬ ∃ w', compute_accuracy X_two [1; 1] (model_always 1) w_empty
            = (Ok (VFloat 1), w').
Proof.
  split; [reflexivity|].
  intros (w' & H). by apply compute_accuracy_no_value in H.
Qed.

(** C3, amended.  [compute_accuracy] takes a data matrix, a label vector
    and a classifier; as shipped it raises [NotImplementedError] on every
    such triple, before the classifier predicts anything, and returns no
    fraction.  The proportion of correct trials that the notebook's text
    asks for is, for label vectors of equal non-zero length, a value in
    [0,1]; it is 1 for (y, y) and 0 for (y, not y). *)
Theorem compute_accuracy_stub_proportion (y_pred y : list Z) :
  length y_pred = length y ->
  y ≠ [] ->
  (∀ X model w,
     compute_accuracy X y model w = (Raise compute_accuracy_error, w))
  ∧ (∃ q, proportion_correct y_pred y = Some q ∧ (0 <= q <= 1)%Q)
  ∧ (∃ q, proportion_correct y y = Some q ∧ (q == 1)%Q)
  ∧ (∃ q, proportion_correct y (map label_not y) = Some q ∧ (q == 0)%Q).
Proof.
  intros Hlen Hne. split; [|split; [|split]].
  - intros X model w. apply compute_accuracy_raises.
  - destruct (proportion_defined y_pred y Hne) as (k & _ & Hq).
    eexists. split; [exact Hq|]. by apply (proportion_range y_pred y).
  - destruct (proportion_defined y y Hne) as (k & Hk & Hq).
    eexists. split; [exact Hq|].
    rewrite n_correct_same, Hk. unfold Qeq. simpl.
    rewrite Zpos_P_of_succ_nat. lia.
  - destruct (proportion_defined y (map label_not y)
                (label_not_nonempty y Hne)) as (k & Hk & Hq).
    eexists. split; [exact Hq|].
    rewrite n_correct_not. reflexivity.
Qed.

Lemma compute_accuracy_stub_proportion_witness :
  (∀ X model w,
     compute_accuracy X [1; 0; 1] model w = (Raise compute_accuracy_error, w))
  ∧ (∃ q, proportion_correct [1; 1; 1] [1; 0; 1] = Some q
          ∧ (0 <= q <= 1)%Q)
  ∧ (∃ q, proportion_correct [1; 0; 1] [1; 0; 1] = Some q ∧ (q == 1)%Q)
  ∧ (∃ q, proportion_correct [1; 0; 1] (map label_not [1; 0; 1]) = Some q
          ∧ (q == 0)%Q).
Proof.
  apply (compute_accuracy_stub_proportion [1; 1; 1] [1; 0; 1]).
  - reflexivity.
  - discriminate.
Defined.

(** C4, as stated, fails: with two predictions against one label the
    shipped [compute_accuracy] raises, but not an InvalidInput error. *)
Lemma compute_accuracy_invalid_input_counterexample :
  length (predict_labels (model_always 0) X_two) ≠ length [1]
  ∧ ¬ ∃ e w', compute_accuracy X_two [1] (model_always 0) w_empty
              = (Raise e, w')
              ∧ exc_class e = "InvalidInput".
Proof.
  split; [simpl; lia|].
  intros (e & w' & H & Hcls). rewrite compute_accuracy_raises in H.
  injection H as <- _. discriminate.
Qed.

(** C4, amended.  When the predictions and the labels differ in length,
    the shipped [compute_accuracy] fails and returns no value, as it does
    on every input: the exception is [NotImplementedError], not an
    InvalidInput condition, it is raised before the classifier predicts
    anything, and no length is compared. *)
Theorem compute_accuracy_length_mismatch X (y : list Z) model w :
  length (predict_labels model X) ≠ length y ->
  ∃ e, compute_accuracy X y model w = (Raise e, w)
       ∧ exc_class e = "NotImplementedError"
       ∧ exc_class e ≠ "InvalidInput".
Proof.
  intros _. exists compute_accuracy_error.
  rewrite compute_accuracy_raises. repeat split. discriminate.
Qed.

Lemma compute_accuracy_length_mismatch_witness :
  ∃ e, compute_accuracy X_two [1] (model_always 0) w_empty
       = (Raise e, w_empty)
       ∧ exc_class e = "NotImplementedError"
       ∧ exc_class e ≠ "InvalidInput".
Proof.
  apply (compute_accuracy_length_mismatch X_two [1] (model_always 0) w_empty).
  simpl. lia.
Defined.

(** * Further properties of the cells *)

Import ObserveMore.

(** ** More on the retrieval cell *)

Lemma not_cached_cases w :
  cached fname w = false ->
  files w !! fname = None ∨ files w !! fname = Some Dir.
Proof.
  unfold cached. destruct (files w !! fname) as [[c|]|]; auto. discriminate.
Qed.

Lemma absent_not_cached w : files w !! fname = None -> cached fname w = false.
Proof. unfold cached. by intros ->. Qed.

Lemma dir_not_cached w : files w !! fname = Some Dir -> cached fname w = false.
Proof. unfold cached. by intros ->. Qed.

(** A verified answer leads to the write, and to nothing else. *)
Lemma retrieval_verified md5 net w r :
  cached fname w = false ->
  net url = Ok r ->
  verified md5 r ->
  retrieval_cell md5 net w
  = write_file fname (content r) (World (files w) (log w ++ [EvGet url])).
Proof.
  intros Hc Hn [Hs Hd]. rewrite retrieval_not_cached by done. cbv zeta.
  rewrite Hn. apply status_ok_iff in Hs. apply digest_ok_iff in Hd.
  by rewrite Hs, Hd.
Qed.

Lemma verified_dec md5 r : verified md5 r ∨ ¬ verified md5 r.
Proof.
  unfold verified.
  destruct (decide (status_code r = codes_ok)),
    (decide (md5 (content r) = expected_md5)); tauto.
Qed.

(** An answer that is not verified leads to one of the two messages. *)
Lemma retrieval_unverified md5 net w r :
  cached fname w = false ->
  net url = Ok r ->
  ¬ verified md5 r ->
  retrieval_cell md5 net w
  = (Ok tt,
     World (files w)
       (log w ++ [EvGet url;
                  EvPrint (if status_code r =? codes_ok
                           then msg_corrupted else msg_failed)])).
Proof.
  intros Hc Hn Hv. rewrite retrieval_not_cached by done. cbv zeta.
  rewrite Hn. destruct (status_code r =? codes_ok) eqn:Hs; simpl.
  - destruct (negb (String.eqb (md5 (content r)) expected_md5)) eqn:Hd.
    + by rewrite print_run, app_two.
    + destruct Hv. split; [by apply Z.eqb_eq|by apply digest_ok_iff].
  - by rewrite print_run, app_two.
Qed.

Lemma retrieval_exception md5 net w e :
  cached fname w = false ->
  net url = Raise e ->
  retrieval_cell md5 net w
  = if is_ConnectionError e
    then (Ok tt, World (files w) (log w ++ [EvGet url; EvPrint msg_failed]))
    else (Raise e, World (files w) (log w ++ [EvGet url])).
Proof.
  intros Hc Hn. rewrite retrieval_not_cached by done. cbv zeta. rewrite Hn.
  destruct (is_ConnectionError e); [|done]. by rewrite print_run, app_two.
Qed.

Lemma write_absent name c fs l :
  fs !! name = None ->
  write_file name c (World fs l)
  = (Ok tt, World (<[name := File c]> fs) (l ++ [EvWrite name c])).
Proof. unfold write_file. simpl. by intros ->. Qed.

Lemma write_on_dir name c fs l :
  fs !! name = Some Dir ->
  write_file name c (World fs l)
  = (Raise (IsADirectoryError name), World fs l).
Proof. unfold write_file. simpl. by intros ->. Qed.

(** X1.  Whatever the network answers, a run of the retrieval cell leaves
    every name of the working directory other than [fname] as it was:
    nothing else is created, changed or removed. *)
Theorem retrieval_other_files_untouched md5 net w name :
  name ≠ fname ->
  files (retrieval_cell md5 net w).2 !! name = files w !! name.
Proof.
  intros Hne.
  destruct (retrieval_files md5 net w) as [->|(r & _ & _ & _ & ->)];
    [done|].
  by rewrite lookup_insert_ne.
Qed.

Lemma retrieval_other_files_untouched_witness :
  files (retrieval_cell (digest_always expected_md5)
           (net_answers 200 [Byte.x50]) w_empty).2 !! "notes.txt"
  = files w_empty !! "notes.txt".
Proof.
  apply (retrieval_other_files_untouched (digest_always expected_md5)
           (net_answers 200 [Byte.x50]) w_empty "notes.txt").
  discriminate.
Defined.

(** X2.  When [fname] denotes nothing and the fetch answers 200 with a
    content of the expected digest, the cell ends normally, prints
    nothing, and [fname] holds exactly the bytes received; the run is one
    GET followed by one write. *)
Theorem retrieval_success_persists md5 net w r :
  files w !! fname = None ->
  net url = Ok r ->
  verified md5 r ->
  retrieval_cell md5 net w
  = (Ok tt,
     World (<[fname := File (content r)]> (files w))
           (log w ++ [EvGet url; EvWrite fname (content r)])).
Proof.
  intros Hnone Hn Hv.
  rewrite (retrieval_verified md5 net w r) by auto using absent_not_cached.
  rewrite write_absent by done. by rewrite app_two.
Qed.

Lemma retrieval_success_persists_witness :
  retrieval_cell (digest_always expected_md5)
    (net_answers 200 [Byte.x50; Byte.x4b]) w_empty
  = (Ok tt,
     World (<[fname := File [Byte.x50; Byte.x4b]]> ∅)
           [EvGet url; EvWrite fname [Byte.x50; Byte.x4b]]).
Proof.
  apply (retrieval_success_persists (digest_always expected_md5)
           (net_answers 200 [Byte.x50; Byte.x4b]) w_empty
           (Response 200 [Byte.x50; Byte.x4b])).
  - reflexivity.
  - reflexivity.
  - split; reflexivity.
Defined.

(** X3.  What the cell does not catch.  Without a cached file, an
    exception of [requests.get] that is no connection error is the
    outcome of the cell, after the one GET and with nothing printed or
    written.  And when the fetch is verified but [fname] is a directory,
    the cell ends with an [IsADirectoryError], after the one GET and with
    nothing printed or written; the directory stays. *)
Theorem retrieval_exceptions_propagate md5 net w :
  cached fname w = false ->
  (∀ e, net url = Raise e -> is_ConnectionError e = false ->
     retrieval_cell md5 net w
     = (Raise e, World (files w) (log w ++ [EvGet url])))
  ∧ (∀ r, files w !! fname = Some Dir -> net url = Ok r ->
     verified md5 r ->
     ∃ e, retrieval_cell md5 net w
          = (Raise e, World (files w) (log w ++ [EvGet url]))
          ∧ exc_class e = "IsADirectoryError").
Proof.
  intros Hc. split.
  - intros e Hn He.
    rewrite (retrieval_exception md5 net w e) by done. by rewrite He.
  - intros r Hd Hn Hv. exists (IsADirectoryError fname).
    rewrite (retrieval_verified md5 net w r) by done.
    by rewrite write_on_dir.
Qed.

Lemma retrieval_exceptions_propagate_witness :
  retrieval_cell (digest_always expected_md5)
    (fun _ => Raise (PyExc "ReadTimeout" "timed out")) w_empty
  = (Raise (PyExc "ReadTimeout" "timed out"), World ∅ [EvGet url])
  ∧ ∃ e, retrieval_cell (digest_always expected_md5)
           (net_answers 200 [Byte.x50]) w_dir
         = (Raise e, World (files w_dir) [EvGet url])
         ∧ exc_class e = "IsADirectoryError".
Proof.
  split.
  - apply (proj1 (retrieval_exceptions_propagate
                    (digest_always expected_md5)
                    (fun _ => Raise (PyExc "ReadTimeout" "timed out"))
                    w_empty eq_refl)
             (PyExc "ReadTimeout" "timed out")).
    + reflexivity.
    + reflexivity.
  - apply (proj2 (retrieval_exceptions_propagate
                    (digest_always expected_md5)
                    (net_answers 200 [Byte.x50]) w_dir eq_refl)
             (Response 200 [Byte.x50])).
    + reflexivity.
    + reflexivity.
    + split; reflexivity.
Defined.

Lemma fetch_fails_unverified md5 r : fetch_fails md5 (Ok r) -> ¬ verified md5 r.
Proof. unfold fetch_fails, verified. intros [H|H] [Hs Hd]; done. Qed.

(** The run of a failed fetch: one GET, one message, nothing else. *)
Lemma retrieval_failure_run md5 net w :
  cached fname w = false ->
  fetch_fails md5 (net url) ->
  ∃ msg, retrieval_cell md5 net w
         = (Ok tt, World (files w) (log w ++ [EvGet url; EvPrint msg])).
Proof.
  intros Hc Hf. destruct (net url) as [r|e] eqn:Hn.
  - eexists. apply retrieval_unverified; [done|done|].
    by apply fetch_fails_unverified.
  - simpl in Hf. rewrite (retrieval_exception md5 net w e) by done.
    rewrite Hf. eauto.
Qed.

Lemma log_tail_inv (l : list event) a b c :
  (l ++ [a; b])%list = (l ++ [a; c])%list -> b = c.
Proof. intros H. apply app_inv_head in H. congruence. Qed.

(** X4.  Without a cached file, the run is "one GET, then the message
    that the download appears corrupted" exactly when the fetch answered
    with status 200 and a content of another digest.  The status is
    looked at first: an answer of another status is never reported as
    corrupted, whatever its content. *)
Theorem retrieval_corrupted_message_iff md5 net w :
  cached fname w = false ->
  retrieval_cell md5 net w
  = (Ok tt, World (files w) (log w ++ [EvGet url; EvPrint msg_corrupted]))
  ↔ ∃ r, net url = Ok r ∧ status_code r = codes_ok
         ∧ md5 (content r) ≠ expected_md5.
Proof.
  intros Hc. split.
  - intros H. destruct (net url) as [r|e] eqn:Hn.
    + destruct (verified_dec md5 r) as [Hv|Hv].
      * rewrite (retrieval_verified md5 net w r) in H by done.
        destruct (not_cached_cases w Hc) as [Hf|Hf].
        { rewrite write_absent in H by done. rewrite app_two in H.
          injection H as _ H. apply log_tail_inv in H. discriminate. }
        rewrite write_on_dir in H by done. discriminate.
      * rewrite (retrieval_unverified md5 net w r) in H by done.
        destruct (status_code r =? codes_ok) eqn:Hs.
        { apply Z.eqb_eq in Hs. exists r. repeat split; [done|].
          intros Hd. apply Hv. by split. }
        injection H as H. apply log_tail_inv in H. discriminate.
    + rewrite (retrieval_exception md5 net w e) in H by done.
      destruct (is_ConnectionError e); [|discriminate].
      injection H as H. apply log_tail_inv in H. discriminate.
  - intros (r & Hn & Hs & Hd).
    rewrite (retrieval_unverified md5 net w r); [|done|done|].
    + apply Z.eqb_eq in Hs. by rewrite Hs.
    + by intros [_ Hd'].
Qed.

Lemma retrieval_corrupted_message_iff_witness :
  (retrieval_cell (digest_always "00") (net_answers 200 [Byte.x50]) w_empty
   = (Ok tt, World ∅ [EvGet url; EvPrint msg_corrupted]))
  ∧ ¬ (retrieval_cell (digest_always "00") (net_answers 404 [Byte.x50])
         w_empty
       = (Ok tt, World ∅ [EvGet url; EvPrint msg_corrupted])).
Proof.
  split.
  - apply (proj2 (retrieval_corrupted_message_iff (digest_always "00")
                    (net_answers 200 [Byte.x50]) w_empty eq_refl)).
    exists (Response 200 [Byte.x50]). repeat split. discriminate.
  - intros H.
    apply (proj1 (retrieval_corrupted_message_iff (digest_always "00")
                    (net_answers 404 [Byte.x50]) w_empty eq_refl)) in H.
    destruct H as (r & Hn & Hs & _). injection Hn as <-. discriminate.
Defined.

(** X5.  After a run, [fname] is a regular file exactly when it was one
    before the run, or it denoted nothing and the fetch was verified.
    In particular a failed run leaves the next run to fetch again. *)
Theorem retrieval_cached_after_iff md5 net w :
  cached fname (retrieval_cell md5 net w).2 = true
  ↔ cached fname w = true
    ∨ (files w !! fname = None ∧ ∃ r, net url = Ok r ∧ verified md5 r).
Proof.
  split.
  - destruct (cached fname w) eqn:Hc; [auto|].
    intros H. right. destruct (net url) as [r|e] eqn:Hn.
    + destruct (verified_dec md5 r) as [Hv|Hv].
      * destruct (not_cached_cases w Hc) as [Hf|Hf]; [eauto|].
        rewrite (retrieval_verified md5 net w r), write_on_dir in H by done.
        rewrite (cached_same_files _ _ w) in H by done. congruence.
      * rewrite (retrieval_unverified md5 net w r) in H by done.
        rewrite (cached_same_files _ _ w) in H by done. congruence.
    + rewrite (retrieval_exception md5 net w e) in H by done.
      destruct (is_ConnectionError e);
        rewrite (cached_same_files _ _ w) in H by done; congruence.
  - intros [Hc|(Hf & r & Hn & Hv)].
    + by rewrite retrieval_cached.
    + rewrite (retrieval_verified md5 net w r)
        by auto using absent_not_cached.
      rewrite write_absent by done. unfold cached. simpl.
      by rewrite lookup_insert_eq.
Qed.

(** X6.  A run of the cell prints at most one message and never both
    prints and writes; a run that ends with an exception has neither
    printed nor written. *)
Theorem retrieval_report_or_write md5 net w :
  ∃ evs,
    log (retrieval_cell md5 net w).2 = (log w ++ evs)%list
    ∧ (count_prints evs + count_writes evs ≤ 1)%nat
    ∧ ((retrieval_cell md5 net w).1 = Ok tt
       ∨ (count_prints evs = 0 ∧ count_writes evs = 0)%nat).
Proof.
  destruct (cached fname w) eqn:Hc.
  { rewrite retrieval_cached by done. exists []. simpl.
    rewrite app_nil_r. auto. }
  destruct (net url) as [r|e] eqn:Hn.
  - destruct (verified_dec md5 r) as [Hv|Hv].
    + rewrite (retrieval_verified md5 net w r) by done.
      destruct (not_cached_cases w Hc) as [Hf|Hf].
      * rewrite write_absent by done. rewrite app_two.
        exists [EvGet url; EvWrite fname (content r)]. simpl. auto.
      * rewrite write_on_dir by done. exists [EvGet url]. simpl. auto.
    + rewrite (retrieval_unverified md5 net w r) by done.
      eexists. simpl. split; [reflexivity|]. simpl. auto.
  - rewrite (retrieval_exception md5 net w e) by done.
    destruct (is_ConnectionError e).
    + exists [EvGet url; EvPrint msg_failed]. simpl. auto.
    + exists [EvGet url]. simpl. auto.
Qed.

(** X7.  The cell keeps no memory of a failure.  When a first run from a
    directory without [fname] fails in one of the three reported ways
    and a second run gets a verified answer, the second run fetches again
    and [fname] then holds the bytes of the second answer. *)
Theorem retrieval_rerun_after_failure md5 net1 net2 w r :
  files w !! fname = None ->
  fetch_fails md5 (net1 url) ->
  net2 url = Ok r ->
  verified md5 r ->
  ∃ msg,
    retrieval_cell md5 net2 (retrieval_cell md5 net1 w).2
    = (Ok tt,
       World (<[fname := File (content r)]> (files w))
             (log w ++ [EvGet url; EvPrint msg;
                        EvGet url; EvWrite fname (content r)])).
Proof.
  intros Hnone Hf Hn Hv.
  destruct (retrieval_failure_run md5 net1 w) as (msg & ->);
    [by apply absent_not_cached|done|].
  exists msg. simpl.
  rewrite (retrieval_verified md5 net2 _ r);
    [|by apply absent_not_cached|done|done].
  simpl. rewrite write_absent by done.
  by rewrite <- !app_assoc.
Qed.

Lemma retrieval_rerun_after_failure_witness :
  ∃ msg,
    retrieval_cell (digest_always expected_md5) (net_answers 200 [Byte.x50])
      (retrieval_cell (digest_always expected_md5) net_refuses w_empty).2
    = (Ok tt,
       World (<[fname := File [Byte.x50]]> ∅)
             [EvGet url; EvPrint msg; EvGet url; EvWrite fname [Byte.x50]]).
Proof.
  apply (retrieval_rerun_after_failure (digest_always expected_md5)
           net_refuses (net_answers 200 [Byte.x50]) w_empty
           (Response 200 [Byte.x50])).
  - reflexivity.
  - reflexivity.
  - reflexivity.
  - split; reflexivity.
Defined.

(** ** More on the loader *)

Section LoaderMore.

Context {ndarray : Type}.
Implicit Types (np_parse : bytes -> result (list (string * ndarray))).
Implicit Types (arrays : list (string * ndarray)).

(** From the empty dictionary, the construction succeeds exactly on
    pairwise distinct keys. *)
Lemma dict_kwargs_empty_ok arrays :
  NoDup arrays.*1 -> dict_kwargs arrays ∅ = Ok (list_to_map arrays).
Proof.
  intros Hnd. rewrite dict_kwargs_fresh; [|done|].
  - by rewrite (right_id_L ∅ (∪)).
  - intros key _. apply lookup_empty.
Qed.

Lemma dict_kwargs_empty_inv arrays data :
  dict_kwargs arrays ∅ = Ok data ->
  NoDup arrays.*1 ∧ data = list_to_map arrays.
Proof.
  intros H. destruct (decide (NoDup arrays.*1)) as [Hnd|Hnd].
  - rewrite dict_kwargs_empty_ok in H by done. split; congruence.
  - destruct (dict_kwargs_clash arrays ∅) as (e & He & _); [by right|].
    congruence.
Qed.

(** The loader on a regular file: the outcome of the two steps. *)
Lemma load_regular np_parse data_fname w c :
  files w !! data_fname = Some (File c) ->
  load_steinmetz_data np_parse data_fname w
  = (match np_parse c with
     | Ok arrays => dict_kwargs arrays ∅
     | Raise e => Raise e
     end, w).
Proof.
  intros Hf. unfold load_steinmetz_data, bind, np_load, lift, ret.
  rewrite Hf. destruct (np_parse c) as [arrays|e]; [|done].
  by destruct (dict_kwargs arrays ∅).
Qed.

Lemma load_directory np_parse data_fname w :
  files w !! data_fname = Some Dir ->
  load_steinmetz_data np_parse data_fname w
  = (Raise (IsADirectoryError data_fname), w).
Proof.
  intros Hf. unfold load_steinmetz_data, bind, np_load. by rewrite Hf.
Qed.

Lemma load_regular_ok np_parse data_fname w c arrays :
  files w !! data_fname = Some (File c) ->
  np_parse c = Ok arrays ->
  NoDup arrays.*1 ->
  load_steinmetz_data np_parse data_fname w = (Ok (list_to_map arrays), w).
Proof.
  intros Hf Hp Hnd. rewrite (load_regular _ _ _ c) by done.
  by rewrite Hp, dict_kwargs_empty_ok.
Qed.

End LoaderMore.

(** X8.  Whatever the working directory holds and whatever [np.load]
    makes of the bytes, a call of the loader leaves the world as it was:
    it writes no file, prints nothing and fetches nothing, also when it
    raises. *)
Theorem load_world_unchanged {ndarray}
    (np_parse : bytes -> result (list (string * ndarray))) data_fname w :
  (load_steinmetz_data np_parse data_fname w).2 = w.
Proof.
  destruct (files w !! data_fname) as [[c|]|] eqn:Hf.
  - by rewrite (load_regular _ _ _ c).
  - by rewrite load_directory.
  - by rewrite load_absent.
Qed.

(** X9.  The loader returns a dictionary exactly when [data_fname] is a
    regular file that [np.load] reads as an archive whose names are
    pairwise distinct; the dictionary is then the one that binds each
    name to its array. *)
Theorem load_returns_iff {ndarray}
    (np_parse : bytes -> result (list (string * ndarray)))
    data_fname w data :
  (load_steinmetz_data np_parse data_fname w).1 = Ok data
  ↔ ∃ c arrays,
      files w !! data_fname = Some (File c)
      ∧ np_parse c = Ok arrays
      ∧ NoDup arrays.*1
      ∧ data = list_to_map arrays.
Proof.
  split.
  - destruct (files w !! data_fname) as [[c|]|] eqn:Hf.
    + rewrite (load_regular _ _ _ c) by done. simpl.
      destruct (np_parse c) as [arrays|e] eqn:Hp; [|discriminate].
      intros H. apply dict_kwargs_empty_inv in H as [Hnd ->].
      by exists c, arrays.
    + rewrite load_directory by done. discriminate.
    + rewrite load_absent by done. discriminate.
  - intros (c & arrays & Hf & Hp & Hnd & ->).
    by rewrite (load_regular_ok _ _ _ c arrays).
Qed.

(** X10.  When the archive stores two arrays under one name, the loader
    returns no dictionary: building it raises a [TypeError]. *)
Theorem load_repeated_name_raises {ndarray}
    (np_parse : bytes -> result (list (string * ndarray)))
    data_fname w c arrays :
  files w !! data_fname = Some (File c) ->
  np_parse c = Ok arrays ->
  ¬ NoDup arrays.*1 ->
  ∃ e, load_steinmetz_data np_parse data_fname w = (Raise e, w)
       ∧ exc_class e = "TypeError".
Proof.
  intros Hf Hp Hnd. rewrite (load_regular _ _ _ c) by done. rewrite Hp.
  destruct (dict_kwargs_clash arrays ∅) as (e & -> & He); [by right|].
  by exists e.
Qed.

Lemma load_repeated_name_raises_witness :
  ∃ e, load_steinmetz_data parse_twice fname w_cached = (Raise e, w_cached)
       ∧ exc_class e = "TypeError".
Proof.
  apply (load_repeated_name_raises parse_twice fname w_cached
           [Byte.x50; Byte.x4b] [("spikes", 1%nat); ("spikes", 2%nat)]).
  - reflexivity.
  - reflexivity.
  - intros Hnd. apply NoDup_cons in Hnd as [Hin _]. apply Hin.
    simpl. apply elem_of_cons. by left.
Defined.

(** The run of a failed fetch, with the message it prints. *)
Lemma retrieval_failure_message md5 net w :
  cached fname w = false ->
  fetch_fails md5 (net url) ->
  ∃ msg, (msg = msg_failed ∨ msg = msg_corrupted)
         ∧ retrieval_cell md5 net w
           = (Ok tt, World (files w) (log w ++ [EvGet url; EvPrint msg])).
Proof.
  intros Hc Hf. destruct (net url) as [r|e] eqn:Hn.
  - exists (if status_code r =? codes_ok then msg_corrupted else msg_failed).
    split; [destruct (status_code r =? codes_ok); auto|].
    apply retrieval_unverified; [done|done|].
    by apply fetch_fails_unverified.
  - simpl in Hf. exists msg_failed. split; [auto|].
    rewrite (retrieval_exception md5 net w e) by done. by rewrite Hf.
Qed.

(** ** The data cells run in a row *)

Import Setup.

Section RunAllFacts.

Context {ndarray : Type}.
Implicit Types (np_parse : bytes -> result (list (string * ndarray))).
Implicit Types (shape : ndarray -> list nat).
Implicit Types (arrays : list (string * ndarray)) (y X : ndarray).

Lemma select_cell_found (data : gmap string ndarray) y X w :
  data !! "choices" = Some y ->
  data !! "spikes" = Some X ->
  select_cell data w = (Ok (y, X), w).
Proof.
  intros Hy HX. unfold select_cell, bind, lift, dict_getitem, ret.
  by rewrite Hy, HX.
Qed.

Lemma select_cell_no_choices (data : gmap string ndarray) w :
  data !! "choices" = None ->
  select_cell data w = (Raise (PyExc "KeyError" "'choices'"), w).
Proof.
  intros Hy. unfold select_cell, bind, lift, dict_getitem. by rewrite Hy.
Qed.

Lemma select_cell_no_spikes (data : gmap string ndarray) y w :
  data !! "choices" = Some y ->
  data !! "spikes" = None ->
  select_cell data w = (Raise (PyExc "KeyError" "'spikes'"), w).
Proof.
  intros Hy HX. unfold select_cell, bind, lift, dict_getitem.
  by rewrite Hy, HX.
Qed.

(** A loop of prints adds its lines to the log, in order. *)
Lemma for_each_print {A} (line : A -> string) (l : list A) fs lg :
  for_each l (fun x => print (line x)) (World fs lg)
  = (Ok tt, World fs (lg ++ map (fun x => EvPrint (line x)) l)).
Proof.
  revert lg. induction l as [|x l IH]; intros lg; simpl.
  - by rewrite app_nil_r.
  - unfold bind. rewrite print_run, IH. by rewrite <- app_assoc.
Qed.

(** The items of the dictionary built from an archive of pairwise
    distinct names are the arrays of the archive, in its order. *)
Lemma items_sub arrays sub :
  NoDup arrays.*1 ->
  (∀ kv, kv ∈ sub -> kv ∈ arrays) ->
  omap (fun key => (fun v => (key, v)) <$> (list_to_map arrays
          : gmap string ndarray) !! key) sub.*1
  = sub.
Proof.
  intros Hnd. induction sub as [|[k v] sub IH]; intros Hsub; [done|].
  simpl. rewrite (proj1 (elem_of_list_to_map arrays k v Hnd)).
  - simpl. f_equal. apply IH. intros kv Hkv. apply Hsub.
    apply elem_of_cons. by right.
  - apply Hsub. apply elem_of_cons. by left.
Qed.

Lemma items_of_archive arrays :
  NoDup arrays.*1 -> items (PyDict arrays.*1 (list_to_map arrays)) = arrays.
Proof. intros Hnd. unfold items. simpl. by apply items_sub. Qed.

(** The ordered reading of the loader and the loader agree on the
    mapping, on the exception and on the world. *)
Lemma load_ordered_mapping np_parse data_fname w :
  load_steinmetz_data np_parse data_fname w
  = match load_steinmetz_data_ordered np_parse data_fname w with
    | (Ok d, w') => (Ok (mapping d), w')
    | (Raise e, w') => (Raise e, w')
    end.
Proof.
  unfold load_steinmetz_data, load_steinmetz_data_ordered, bind, lift, ret.
  destruct (np_load np_parse data_fname w) as [[dobj|e] w']; [|done].
  by destruct (dict_kwargs dobj ∅).
Qed.

Lemma load_ordered_regular_ok np_parse data_fname w c arrays :
  files w !! data_fname = Some (File c) ->
  np_parse c = Ok arrays ->
  NoDup arrays.*1 ->
  load_steinmetz_data_ordered np_parse data_fname w
  = (Ok (PyDict arrays.*1 (list_to_map arrays)), w).
Proof.
  intros Hf Hp Hnd.
  unfold load_steinmetz_data_ordered, bind, np_load, lift, ret.
  by rewrite Hf, Hp, dict_kwargs_empty_ok.
Qed.

Lemma load_ordered_absent np_parse data_fname w :
  files w !! data_fname = None ->
  load_steinmetz_data_ordered np_parse data_fname w
  = (Raise (FileNotFoundError data_fname), w).
Proof.
  intros Hf. unfold load_steinmetz_data_ordered, bind.
  by rewrite np_load_absent.
Qed.

(** The load cell on an archive of pairwise distinct names. *)
Lemma load_cell_regular np_parse shape w c arrays :
  files w !! fname = Some (File c) ->
  np_parse c = Ok arrays ->
  NoDup arrays.*1 ->
  load_cell np_parse shape w
  = (Ok (PyDict arrays.*1 (list_to_map arrays)),
     World (files w)
           (log w ++ map (fun kv => EvPrint (shape_line shape kv)) arrays)).
Proof.
  intros Hf Hp Hnd. unfold load_cell. unfold bind at 1.
  rewrite (load_ordered_regular_ok np_parse fname w c arrays) by done.
  rewrite items_of_archive by done. unfold bind. destruct w as [fs lg].
  by rewrite for_each_print.
Qed.

(** Once the retrieval cell has ended normally, the rest of the run is
    the load cell followed by the two bindings. *)
Lemma run_after_retrieval md5 net np_parse shape w w1 :
  retrieval_cell md5 net w = (Ok tt, w1) ->
  run_data_cells md5 net np_parse shape w
  = (data <- load_cell np_parse shape ;; select_cell (mapping data)) w1.
Proof. intros H. unfold run_data_cells, bind at 1. by rewrite H. Qed.

Lemma load_then_select np_parse shape w c arrays :
  files w !! fname = Some (File c) ->
  np_parse c = Ok arrays ->
  NoDup arrays.*1 ->
  (data <- load_cell np_parse shape ;; select_cell (mapping data)) w
  = select_cell (list_to_map arrays)
      (World (files w)
         (log w ++ map (fun kv => EvPrint (shape_line shape kv)) arrays)).
Proof.
  intros Hf Hp Hnd. unfold bind at 1.
  by rewrite (load_cell_regular np_parse shape w c arrays).
Qed.

End RunAllFacts.

(** X11.  The order in which the archive stores its arrays shows in the
    dictionary and on the output.  With [fname] a regular file whose
    archive has pairwise distinct names, the load cell prints one line
    per array, "name shape", in the order of the archive, and changes
    nothing else; the items of its dictionary are the arrays of the
    archive in that order, and its mapping is the one that
    [load_steinmetz_data()] returns. *)
Theorem load_cell_prints_archive_order {ndarray}
    (np_parse : bytes -> result (list (string * ndarray)))
    (shape : ndarray -> list nat) w c arrays :
  files w !! fname = Some (File c) ->
  np_parse c = Ok arrays ->
  NoDup arrays.*1 ->
  ∃ data,
    load_cell np_parse shape w
    = (Ok data,
       World (files w)
         (log w ++ map (fun kv => EvPrint (shape_line shape kv)) arrays))
    ∧ items data = arrays
    ∧ load_default np_parse w = (Ok (mapping data), w).
Proof.
  intros Hf Hp Hnd. exists (PyDict arrays.*1 (list_to_map arrays)).
  split; [|split].
  - by apply (load_cell_regular np_parse shape w c).
  - by apply items_of_archive.
  - unfold load_default. by apply (load_regular_ok _ _ _ c).
Qed.

Lemma load_cell_prints_archive_order_witness :
  (∃ data,
     load_cell parse_either shape_flat w_cached_one
     = (Ok data,
        World (files w_cached_one)
              [EvPrint "spikes (698,)"; EvPrint "choices (276,)"])
     ∧ items data = [("spikes", 698%nat); ("choices", 276%nat)]
     ∧ load_default parse_either w_cached_one
       = (Ok (mapping data), w_cached_one))
  ∧ (∃ data,
       load_cell parse_either shape_flat w_cached
       = (Ok data,
          World (files w_cached)
                [EvPrint "choices (276,)"; EvPrint "spikes (698,)"])
       ∧ items data = [("choices", 276%nat); ("spikes", 698%nat)]
       ∧ load_default parse_either w_cached
         = (Ok (mapping data), w_cached)).
Proof.
  split.
  - apply (load_cell_prints_archive_order parse_either shape_flat
             w_cached_one [Byte.x50]
             [("spikes", 698%nat); ("choices", 276%nat)]).
    + reflexivity.
    + reflexivity.
    + apply (bool_decide_unpack _). vm_compute. exact I.
  - apply (load_cell_prints_archive_order parse_either shape_flat
             w_cached [Byte.x50; Byte.x4b]
             [("choices", 276%nat); ("spikes", 698%nat)]).
    + reflexivity.
    + reflexivity.
    + apply (bool_decide_unpack _). vm_compute. exact I.
Defined.

(** X12.  Run in a row from a directory without [fname], with a verified
    download whose bytes [np.load] reads as an archive of pairwise
    distinct names, the data cells bind [y] to the array stored under
    "choices" and [X] to the one stored under "spikes".  The run made one
    GET and one write, then printed one line per array in the order of
    the archive, and the file holds the bytes received. *)
Theorem run_data_cells_fresh_download {ndarray} md5 net
    (np_parse : bytes -> result (list (string * ndarray)))
    (shape : ndarray -> list nat) w r arrays (y X : ndarray) :
  files w !! fname = None ->
  net url = Ok r ->
  verified md5 r ->
  np_parse (content r) = Ok arrays ->
  NoDup arrays.*1 ->
  ("choices", y) ∈ arrays ->
  ("spikes", X) ∈ arrays ->
  run_data_cells md5 net np_parse shape w
  = (Ok (y, X),
     World (<[fname := File (content r)]> (files w))
           (log w ++ [EvGet url; EvWrite fname (content r)]
              ++ map (fun kv => EvPrint (shape_line shape kv)) arrays)).
Proof.
  intros Hnone Hn Hv Hp Hnd Hy HX.
  erewrite run_after_retrieval; cycle 1.
  { rewrite (retrieval_verified md5 net w r)
      by auto using absent_not_cached.
    rewrite write_absent by done. by rewrite app_two. }
  rewrite (load_then_select np_parse shape _ (content r) arrays);
    [|simpl|done|done].
  - simpl. rewrite <- app_assoc.
    apply select_cell_found; by apply elem_of_list_to_map.
  - apply lookup_insert_eq.
Qed.

Lemma run_data_cells_fresh_download_witness :
  run_data_cells (digest_always expected_md5) (net_answers 200 [Byte.x50])
    parse_either shape_flat w_empty
  = (Ok (276%nat, 698%nat),
     World (<[fname := File [Byte.x50]]> ∅)
           [EvGet url; EvWrite fname [Byte.x50];
            EvPrint "spikes (698,)"; EvPrint "choices (276,)"]).
Proof.
  apply (run_data_cells_fresh_download (digest_always expected_md5)
           (net_answers 200 [Byte.x50]) parse_either shape_flat w_empty
           (Response 200 [Byte.x50])
           [("spikes", 698%nat); ("choices", 276%nat)]).
  - reflexivity.
  - reflexivity.
  - split; reflexivity.
  - reflexivity.
  - apply (bool_decide_unpack _). vm_compute. exact I.
  - apply elem_of_cons. right. apply elem_of_cons. by left.
  - apply elem_of_cons. by left.
Defined.

(** X13.  A file that is already there is taken as it is.  With [fname]
    a regular file, whatever its digest and whatever the network would
    answer, the data cells run in a row fetch nothing, write nothing and
    print no error message: they print one line per array of that file,
    in the order of its archive, and bind [y] and [X] from its arrays. *)
Theorem run_data_cells_cached {ndarray} md5 net
    (np_parse : bytes -> result (list (string * ndarray)))
    (shape : ndarray -> list nat) w c arrays (y X : ndarray) :
  files w !! fname = Some (File c) ->
  np_parse c = Ok arrays ->
  NoDup arrays.*1 ->
  ("choices", y) ∈ arrays ->
  ("spikes", X) ∈ arrays ->
  run_data_cells md5 net np_parse shape w
  = (Ok (y, X),
     World (files w)
           (log w ++ map (fun kv => EvPrint (shape_line shape kv)) arrays)).
Proof.
  intros Hf Hp Hnd Hy HX.
  rewrite (run_after_retrieval md5 net np_parse shape w w).
  - rewrite (load_then_select np_parse shape w c arrays) by done.
    apply select_cell_found; by apply elem_of_list_to_map.
  - apply retrieval_cached. unfold cached. by rewrite Hf.
Qed.

Lemma run_data_cells_cached_witness :
  digest_always "00" [Byte.x50; Byte.x4b] ≠ expected_md5
  ∧ run_data_cells (digest_always "00") net_refuses parse_either shape_flat
      w_cached
    = (Ok (276%nat, 698%nat),
       World (files w_cached)
             [EvPrint "choices (276,)"; EvPrint "spikes (698,)"]).
Proof.
  split; [discriminate|].
  apply (run_data_cells_cached (digest_always "00") net_refuses
           parse_either shape_flat w_cached [Byte.x50; Byte.x4b]
           [("choices", 276%nat); ("spikes", 698%nat)]).
  - reflexivity.
  - reflexivity.
  - apply (bool_decide_unpack _). vm_compute. exact I.
  - apply elem_of_cons. by left.
  - apply elem_of_cons. right. apply elem_of_cons. by left.
Defined.

(** X14.  Run in a row from a directory without [fname], with a fetch
    that fails in one of the three reported ways, the data cells end with
    a [FileNotFoundError] raised by the loader: the run made one GET,
    printed one message, wrote nothing, and bound neither [y] nor [X]. *)
Theorem run_data_cells_failed_download {ndarray} md5 net
    (np_parse : bytes -> result (list (string * ndarray)))
    (shape : ndarray -> list nat) w :
  files w !! fname = None ->
  fetch_fails md5 (net url) ->
  ∃ msg e,
    run_data_cells md5 net np_parse shape w
    = (Raise e, World (files w) (log w ++ [EvGet url; EvPrint msg]))
    ∧ (msg = msg_failed ∨ msg = msg_corrupted)
    ∧ exc_class e = "FileNotFoundError".
Proof.
  intros Hnone Hfail.
  destruct (retrieval_failure_message md5 net w) as (msg & Hmsg & Hrun);
    [by apply absent_not_cached|done|].
  exists msg, (FileNotFoundError fname).
  rewrite (run_after_retrieval _ _ _ _ _ _ Hrun).
  unfold bind, load_cell, bind. by rewrite load_ordered_absent.
Qed.

Lemma run_data_cells_failed_download_witness :
  ∃ msg e,
    run_data_cells (digest_always expected_md5) (net_answers 503 [])
      parse_either shape_flat w_empty
    = (Raise e, World ∅ [EvGet url; EvPrint msg])
    ∧ (msg = msg_failed ∨ msg = msg_corrupted)
    ∧ exc_class e = "FileNotFoundError".
Proof.
  apply (run_data_cells_failed_download (digest_always expected_md5)
           (net_answers 503 []) parse_either shape_flat w_empty).
  - reflexivity.
  - left. discriminate.
Defined.

(** X15.  With [fname] a regular file whose archive has pairwise distinct
    names but lacks one of the two arrays, the run prints the line of
    each array it does hold and then fails on the first name that is
    missing: a [KeyError] for 'choices' when the archive lacks the
    choices, whether or not it holds the spikes, and a [KeyError] for
    'spikes' when it lacks the spikes only. *)
Theorem run_data_cells_missing_key {ndarray} md5 net
    (np_parse : bytes -> result (list (string * ndarray)))
    (shape : ndarray -> list nat) w c arrays :
  files w !! fname = Some (File c) ->
  np_parse c = Ok arrays ->
  NoDup arrays.*1 ->
  "choices" ∉ arrays.*1 ∨ "spikes" ∉ arrays.*1 ->
  run_data_cells md5 net np_parse shape w
  = (Raise (PyExc "KeyError"
              (if bool_decide ("choices" ∈ arrays.*1)
               then "'spikes'" else "'choices'")),
     World (files w)
           (log w ++ map (fun kv => EvPrint (shape_line shape kv)) arrays)).
Proof.
  intros Hf Hp Hnd Hmiss.
  rewrite (run_after_retrieval md5 net np_parse shape w w);
    [|apply retrieval_cached; unfold cached; by rewrite Hf].
  rewrite (load_then_select np_parse shape w c arrays) by done.
  case_bool_decide as Hc.
  - destruct Hmiss as [Hmiss|Hmiss]; [done|].
    apply list_elem_of_fmap in Hc as ([k y] & Hk & Hy). simpl in Hk.
    subst k. apply (select_cell_no_spikes _ y).
    + by apply elem_of_list_to_map.
    + by apply not_elem_of_list_to_map.
  - apply select_cell_no_choices. by apply not_elem_of_list_to_map.
Qed.

Lemma run_data_cells_missing_key_witness :
  run_data_cells (digest_always expected_md5) net_refuses
    parse_spikes_only shape_flat w_cached
  = (Raise (PyExc "KeyError" "'choices'"),
     World (files w_cached) [EvPrint "spikes (698,)"]).
Proof.
  apply (run_data_cells_missing_key (digest_always expected_md5) net_refuses
           parse_spikes_only shape_flat w_cached [Byte.x50; Byte.x4b]
           [("spikes", 698%nat)]).
  - reflexivity.
  - reflexivity.
  - apply (bool_decide_unpack _). vm_compute. exact I.
  - left. apply (bool_decide_unpack _). vm_compute. exact I.
Defined.

(** ** The best C of [plot_model_selection] *)

Import ModelSelection.

Section Argmax.

Implicit Types (pre rest a : list Q) (b m x : Q).

Lemma first_largest_step_keep pre bi b x :
  first_largest pre bi b -> (x <= b)%Q ->
  first_largest (pre ++ [x]) bi b.
Proof.
  intros (Hb & Hmax & Hfirst) Hx. split; [|split].
  - by apply lookup_app_l_Some.
  - intros j y Hj. apply lookup_snoc_Some in Hj as [[_ Hj]|[_ <-]];
      [by apply (Hmax j)|done].
  - intros j y Hlt Hj. apply lookup_snoc_Some in Hj as [[_ Hj]|[-> _]].
    + by apply (Hfirst j).
    + apply lookup_lt_Some in Hb. lia.
Qed.

Lemma first_largest_step_replace pre bi b x :
  first_largest pre bi b -> (b < x)%Q ->
  first_largest (pre ++ [x]) (length pre) x.
Proof.
  intros (Hb & Hmax & Hfirst) Hx. split; [|split].
  - by apply list_lookup_middle.
  - intros j y Hj. apply lookup_snoc_Some in Hj as [[_ Hj]|[_ <-]].
    + apply Qlt_le_weak, Qle_lt_trans with b; [by apply (Hmax j)|done].
    + apply Qle_refl.
  - intros j y Hlt Hj. rewrite lookup_app_l in Hj by done.
    apply Qle_lt_trans with b; [by apply (Hmax j)|done].
Qed.

Lemma argmax_scan_first_largest rest pre bi b :
  first_largest pre bi b ->
  ∃ m, first_largest (pre ++ rest) (argmax_scan bi b (length pre) rest) m.
Proof.
  revert pre bi b. induction rest as [|x rest IH]; intros pre bi b Hinv.
  - simpl. rewrite app_nil_r. eauto.
  - simpl. rewrite cons_middle, app_assoc.
    replace (S (length pre)) with (length (pre ++ [x]))
      by (rewrite length_app; simpl; lia).
    destruct (Qle_bool x b) eqn:Hle.
    + apply IH. apply (first_largest_step_keep pre bi b x); [done|].
      by apply Qle_bool_iff.
    + apply IH. apply (first_largest_step_replace pre bi b x); [done|].
      apply Qnot_le_lt. intros H. apply Qle_bool_iff in H. congruence.
Qed.

Lemma np_argmax_first_largest a :
  a ≠ [] -> ∃ i m, np_argmax a = Ok i ∧ first_largest a i m.
Proof.
  destruct a as [|x rest]; [done|]. intros _.
  destruct (argmax_scan_first_largest rest [x] 0 x) as (m & Hm).
  - split; [done|]. split.
    + intros [|j] y Hj; simpl in Hj; [|done].
      injection Hj as <-. apply Qle_refl.
    + intros j y Hlt. lia.
  - simpl in Hm. eauto.
Qed.

End Argmax.

(** X16.  For as many C values as accuracies, and at least one, the best
    C is the C value at the position of the first largest accuracy: no
    accuracy is larger than the one at that position, and every accuracy
    before it is strictly smaller. *)
Theorem best_C_first_largest (C_values accuracies : list Q) :
  length C_values = length accuracies ->
  accuracies ≠ [] ->
  ∃ i c m,
    best_C C_values accuracies = Ok c
    ∧ C_values !! i = Some c
    ∧ accuracies !! i = Some m
    ∧ (∀ j x, accuracies !! j = Some x -> (x <= m)%Q)
    ∧ (∀ j x, (j < i)%nat -> accuracies !! j = Some x -> (x < m)%Q).
Proof.
  intros Hlen Hne.
  destruct (np_argmax_first_largest accuracies Hne)
    as (i & m & Harg & Hi & Hmax & Hfirst).
  destruct (lookup_lt_is_Some_2 C_values i) as [c Hc].
  { rewrite Hlen. by apply lookup_lt_Some in Hi. }
  exists i, c, m. unfold best_C, getitem. rewrite Harg, Hc. auto.
Qed.

Lemma best_C_first_largest_witness :
  ∃ i c m,
    best_C [0.01; 1; 100]%Q [0.5; 0.75; 0.75]%Q = Ok c
    ∧ [0.01; 1; 100]%Q !! i = Some c
    ∧ [0.5; 0.75; 0.75]%Q !! i = Some m
    ∧ (∀ j x, [0.5; 0.75; 0.75]%Q !! j = Some x -> (x <= m)%Q)
    ∧ (∀ j x, (j < i)%nat -> [0.5; 0.75; 0.75]%Q !! j = Some x
              -> (x < m)%Q).
Proof.
  apply (best_C_first_largest [0.01; 1; 100]%Q [0.5; 0.75; 0.75]%Q).
  - reflexivity.
  - discriminate.
Defined.

(** X17.  When the C values come in increasing order, ties go to the
    smallest C: the best C is not larger than the C value of any position
    whose accuracy equals the largest one. *)
Theorem best_C_smallest_among_ties (C_values accuracies : list Q) c :
  (∀ j k cj ck, (j < k)%nat -> C_values !! j = Some cj ->
                C_values !! k = Some ck -> (cj < ck)%Q) ->
  length C_values = length accuracies ->
  best_C C_values accuracies = Ok c ->
  ∀ k ck mk,
    C_values !! k = Some ck ->
    accuracies !! k = Some mk ->
    (∀ j x, accuracies !! j = Some x -> (x <= mk)%Q) ->
    (c <= ck)%Q.
Proof.
  intros Hasc Hlen Hbest k ck mk Hck Hmk Hlargest.
  assert (Hne : accuracies ≠ []) by (intros ->; done).
  destruct (np_argmax_first_largest accuracies Hne)
    as (i & m & Harg & Hi & Hmax & Hfirst).
  unfold best_C, getitem in Hbest. rewrite Harg in Hbest.
  destruct (C_values !! i) as [ci|] eqn:Hci; [|done].
  injection Hbest as ->.
  destruct (Nat.lt_trichotomy i k) as [Hlt|[->|Hgt]].
  - apply Qlt_le_weak. by apply (Hasc i k).
  - rewrite Hci in Hck. injection Hck as ->. apply Qle_refl.
  - exfalso. apply (Qlt_irrefl m).
    apply Qle_lt_trans with mk; [by apply (Hlargest i)|by apply (Hfirst k)].
Qed.

Lemma best_C_smallest_among_ties_witness :
  (1 <= 100)%Q.
Proof.
  apply (best_C_smallest_among_ties [0.01; 1; 100]%Q [0.5; 0.75; 0.75]%Q
           1%Q) with (k := 2%nat) (mk := 0.75%Q).
  - intros [|[|[|j]]] [|[|[|k]]] cj ck Hlt Hj Hk; simpl in *;
      try lia; try discriminate;
      injection Hj as <-; injection Hk as <-; reflexivity.
  - reflexivity.
  - reflexivity.
  - reflexivity.
  - reflexivity.
  - intros [|[|[|j]]] x Hx; simpl in Hx; try discriminate;
      injection Hx as <-; discriminate.
Defined.

(** Without any accuracy the binding raises, whatever the C values. *)
Example best_C_no_accuracy :
  ∃ e, best_C [0.01; 1]%Q [] = Raise e ∧ exc_class e = "ValueError".
Proof. eexists. split; reflexivity. Qed.
